(** * ScriptLyze backend: pattern detector, duration metadata and usage policy

    A shallow embedding of the decision logic of the ScriptLyze backend
    ([app/core/analyzer.py], [app/api/v1/analyze.py], [app/core/config.py],
    [app/models/models.py]) together with the properties its specification
    states about it.

    Conventions of the embedding.
    - A Python [str] is a Rocq [string]; a character is a code point below
      256 (the [ascii] type).  On that range [\d] is [0-9], the only
      case-insensitive pairs that involve a pattern letter are the ASCII
      ones, and [str.split()] separates on the characters listed in
      [isspace].
    - A Python [float] is an IEEE 754 binary64 number ([PrimFloat.float]),
      with the kernel's correctly rounded operations.
    - A Python [dict] that is only looked up is a [gmap]; a dict that is
      iterated is an association list in insertion order.
    - Code that raises returns a sum: [inl] is the exception, [inr] the value.
    - The external scoring service and the database are part of the world a
      handler runs in: what the service replies and whether the database
      accepts a commit are given with the world.
    - [app/core/security.py] is not among the sources; the rate-limit check
      and the plan requirement that [analyze.py] imports from it are modelled
      from the specification (module [Policy]). *)

From Stdlib Require Import Ascii ZArith Floats.
From stdpp Require Import base option list gmap strings pretty.

Open Scope string_scope.
Open Scope Z_scope.

(** ** Characters and the string methods the code uses *)

Module Str.

(** [str.isspace] on code points below 256: TAB, LF, VT, FF, CR, the four
    separators FS, GS, RS, US, SPACE, NEL (0x85) and NBSP (0xA0). *)
Definition isspace (c : ascii) : bool :=
  let n := nat_of_ascii c in
  ((9 <=? n) && (n <=? 13))%nat || ((28 <=? n) && (n <=? 32))%nat
  || (n =? 133)%nat || (n =? 160)%nat.

Definition isupper (c : ascii) : bool :=
  let n := nat_of_ascii c in ((65 <=? n) && (n <=? 90))%nat.

Definition islower (c : ascii) : bool :=
  let n := nat_of_ascii c in ((97 <=? n) && (n <=? 122))%nat.

Definition isdigit (c : ascii) : bool :=
  let n := nat_of_ascii c in ((48 <=? n) && (n <=? 57))%nat.

Definition lower (c : ascii) : ascii :=
  if isupper c then ascii_of_nat (nat_of_ascii c + 32) else c.

Definition upper (c : ascii) : ascii :=
  if islower c then ascii_of_nat (nat_of_ascii c - 32) else c.

(** The scanning loop of [str.split()] with no separator: [cur] is the token
    being read, a whitespace character closes it, empty tokens are dropped. *)
Fixpoint split_from (cur : string) (s : string) : list string :=
  match s with
  | EmptyString => if decide (cur = "") then [] else [cur]
  | String c s' =>
      if isspace c
      then (if decide (cur = "") then split_from "" s'
            else cur :: split_from "" s')
      else split_from (cur +:+ String c "") s'
  end.

Definition split (s : string) : list string := split_from "" s.

(** [s.replace(old, new)] for one-character [old] and [new]. *)
Fixpoint replace (old new : ascii) (s : string) : string :=
  match s with
  | EmptyString => EmptyString
  | String c s' => String (if Ascii.eqb c old then new else c) (replace old new s')
  end.

(** [str.title()]: a letter that follows a letter is lowered, any other
    letter is raised, the rest is kept.  It is applied to the library keys
    only, which are ASCII. *)
Fixpoint title_from (prev_cased : bool) (s : string) : string :=
  match s with
  | EmptyString => EmptyString
  | String c s' =>
      let cased := isupper c || islower c in
      String (if cased then (if prev_cased then lower c else upper c) else c)
             (title_from cased s')
  end.

Definition title (s : string) : string := title_from false s.

End Str.

(** ** Regular expressions, as [re.search] evaluates them *)

Module Re.

(** The fragment of Python's [re] syntax the pattern library is written in.
    Every pattern starts with [(?i)], so matching is case-insensitive
    throughout. *)
Inductive regex : Type :=
| Eps                                             (* the empty pattern *)
| Chr (c : ascii)                                 (* a literal character *)
| Any                                             (* [.]: all but newline *)
| Digit                                           (* [\d] *)
| Cls (cs : list ascii)                           (* [[...]] *)
| Cat (r1 r2 : regex)                             (* [r1r2] *)
| Alt (r1 r2 : regex)                             (* [r1|r2] *)
| Repeat (lo : nat) (hi : option nat) (r : regex) (* [r{lo,hi}], [r?], [r+] *).

(** A literal word, character by character. *)
Fixpoint lit (w : string) : regex :=
  match w with
  | EmptyString => Eps
  | String c w' => Cat (Chr c) (lit w')
  end.

(** [(a|b|...)] for a non-empty list of alternatives. *)
Fixpoint alts (r : regex) (rs : list regex) : regex :=
  match rs with
  | [] => r
  | r' :: rs' => Alt r (alts r' rs')
  end.

Definition dots (lo hi : nat) : regex := Repeat lo (Some hi) Any.
Definition opt (r : regex) : regex := Repeat 0 (Some 1%nat) r.
Definition plus (r : regex) : regex := Repeat 1 None r.

(** Equality of characters under the IGNORECASE flag. *)
Definition chr_eq (c d : ascii) : bool := Ascii.eqb (Str.lower c) (Str.lower d).

Definition newline : ascii := ascii_of_nat 10.

(** The loop of a repetition: [n] rounds are left, [lo] of them are owed;
    greedy, so one more round of [step] is tried before the loop is left. *)
Fixpoint repeat_here (step : string -> (string -> bool) -> bool) (k : string -> bool)
    (n lo : nat) (s : string) {struct n} : bool :=
  match n with
  | O => match lo with O => k s | S _ => false end
  | S n' =>
      if step s (fun s' => repeat_here step k n' (Nat.pred lo) s') then true
      else match lo with O => k s | S _ => false end
  end.

(** The backtracking matcher: [match_here r s k] tries every way [r] can
    match a prefix of [s] and passes the rest to [k].  An unbounded
    repetition makes the rounds it owes and at most one more per character
    of [s]: further rounds would match the empty string. *)
Fixpoint match_here (r : regex) (s : string) (k : string -> bool) {struct r} : bool :=
  match r with
  | Eps => k s
  | Chr c =>
      match s with
      | String d s' => if chr_eq c d then k s' else false
      | EmptyString => false
      end
  | Any =>
      match s with
      | String d s' => if Ascii.eqb d newline then false else k s'
      | EmptyString => false
      end
  | Digit =>
      match s with
      | String d s' => if Str.isdigit d then k s' else false
      | EmptyString => false
      end
  | Cls cs =>
      match s with
      | String d s' => if existsb (fun c => chr_eq c d) cs then k s' else false
      | EmptyString => false
      end
  | Cat r1 r2 => match_here r1 s (fun s' => match_here r2 s' k)
  | Alt r1 r2 => if match_here r1 s k then true else match_here r2 s k
  | Repeat lo hi r0 =>
      let rounds := match hi with
                    | Some h => h
                    | None => (lo + String.length s)%nat
                    end in
      repeat_here (match_here r0) k rounds lo s
  end.

(** [re.search(r, s)] is truthy when [r] matches at some position of [s]. *)
Fixpoint search (r : regex) (s : string) : bool :=
  if match_here r s (fun _ => true) then true
  else match s with
       | EmptyString => false
       | String _ s' => search r s'
       end.

End Re.

(** ** The viral pattern detector ([ViralPatternDetector]) *)

Module ViralPatternDetector.
Import Re.

(** [(?i)(problem|issue|struggle).{50,500}(worse|imagine|what if).{50,500}(solution|answer|fix)] *)
Definition problem_agitate_solution : regex :=
  Cat (alts (lit "problem") [lit "issue"; lit "struggle"])
 (Cat (dots 50 500)
 (Cat (alts (lit "worse") [lit "imagine"; lit "what if"])
 (Cat (dots 50 500)
      (alts (lit "solution") [lit "answer"; lit "fix"])))).

(** [(?i)(you won't believe|secret|hidden|nobody tells you|shocking)] *)
Definition curiosity_gap : regex :=
  alts (lit "you won't believe")
       [lit "secret"; lit "hidden"; lit "nobody tells you"; lit "shocking"].

(** [(?i)(\d+[kKmM]? (people|viewers|subscribers|users))] *)
Definition social_proof : regex :=
  Cat (plus Digit)
 (Cat (opt (Cls ["k"; "K"; "m"; "M"]%char))
 (Cat (Chr " ")
      (alts (lit "people") [lit "viewers"; lit "subscribers"; lit "users"]))).

(** [(?i)(from .{5,30} to .{5,30}|before .{5,30} after|went from)] *)
Definition transformation : regex :=
  alts (Cat (lit "from ") (Cat (dots 5 30) (Cat (lit " to ") (dots 5 30))))
       [Cat (lit "before ") (Cat (dots 5 30) (lit " after"));
        lit "went from"].

(** [(?i)(stop|don't|never|why you shouldn't|the truth about|myth)] *)
Definition contrarian : regex :=
  alts (lit "stop")
       [lit "don't"; lit "never"; lit "why you shouldn't";
        lit "the truth about"; lit "myth"].

(** [(?i)(I|my|me).{20,200}(realized|learned|discovered|failed)] *)
Definition personal_story : regex :=
  Cat (alts (lit "I") [lit "my"; lit "me"])
 (Cat (dots 20 200)
      (alts (lit "realized") [lit "learned"; lit "discovered"; lit "failed"])).

(** The class attribute [VIRAL_PATTERNS], in the order its keys are written:
    iterating a dict follows insertion order. *)
Definition VIRAL_PATTERNS : list (string * regex) :=
  [ ("problem_agitate_solution", problem_agitate_solution);
    ("curiosity_gap", curiosity_gap);
    ("social_proof", social_proof);
    ("transformation", transformation);
    ("contrarian", contrarian);
    ("personal_story", personal_story) ].

(** [pattern_name.replace("_", " ").title()] *)
Definition display_name (pattern_name : string) : string :=
  Str.title (Str.replace "_" " " pattern_name).

(** One round of the [for] loop of [detect_patterns]: [detected] is the list
    built so far. *)
Definition detect_step (script : string) (detected : list string)
    (item : string * regex) : list string :=
  if search item.2 script then detected ++ [display_name item.1] else detected.

Definition detect_patterns (script : string) : list string :=
  fold_left (detect_step script) VIRAL_PATTERNS [].

End ViralPatternDetector.

(** ** JSON values, exceptions and the world the handlers run in *)

(** What [json.loads] returns. *)
#[warnings="-register-all"]
Inductive json : Type :=
| JNull
| JBool (b : bool)
| JInt (n : Z)
| JFloat (x : float)
| JStr (s : string)
| JArr (l : list json)
| JObj (m : gmap string json).

(** The exceptions that travel through the handlers. *)
Inductive exn : Type :=
| FloatConversionError                         (* [int()] of an infinity or a NaN *)
| ServiceError (msg : string)                  (* raised by the scoring client *)
| JSONDecodeError (content : string)           (* raised by [json.loads] *)
| TypeError (msg : string)
| KeyError (key : string)
| DatabaseError (msg : string)                 (* raised by [db.commit()] *)
| Exception (msg : string)                     (* [raise Exception(...)] *)
| HTTPException (status_code : Z) (detail : string)
| ConfigurationError (tier : string)
| PlanUpgradeRequired.

(** [str(e)] *)
Definition str (e : exn) : string :=
  match e with
  | FloatConversionError => "cannot convert float to integer"
  | ServiceError msg | TypeError msg | DatabaseError msg | Exception msg => msg
  | JSONDecodeError _ => "Expecting value"
  | KeyError key => "'" +:+ key +:+ "'"
  | HTTPException _ detail => detail
  | ConfigurationError tier => "unknown plan tier: " +:+ tier
  | PlanUpgradeRequired => "plan_upgrade_required"
  end.

(** [obj[key] = value]: only a dict accepts it. *)
Definition setitem (obj : json) (key : string) (value : json) : exn + json :=
  match obj with
  | JObj m => inr (JObj (<[key := value]> m))
  | _ => inl (TypeError "object does not support item assignment")
  end.

(** [obj[key]] *)
Definition getitem (obj : json) (key : string) : exn + json :=
  match obj with
  | JObj m => match m !! key with Some v => inr v | None => inl (KeyError key) end
  | _ => inl (TypeError "object is not subscriptable")
  end.

(** [obj.get(key, default)] *)
Definition get (obj : json) (key : string) (default_value : json) : exn + json :=
  match obj with
  | JObj m => inr (default default_value (m !! key))
  | _ => inl (TypeError "object has no attribute get")
  end.

(** [Settings] of [app/core/config.py]: the rate limits, analyses per month. *)
Record Settings : Type := {
  RATE_LIMIT_FREE : Z;
  RATE_LIMIT_PRO : Z;
  RATE_LIMIT_CREATOR : Z
}.

(** The defaults the class declares; the environment may override them. *)
Definition default_settings : Settings :=
  {| RATE_LIMIT_FREE := 3; RATE_LIMIT_PRO := 50; RATE_LIMIT_CREATOR := 500 |}.

(** The columns of [User] the handlers read or write. *)
Record User : Type := {
  id : string;
  plan : string;
  analyses_this_month : Z;
  total_analyses : Z
}.

(** A row of [analyses], as [analyze_script] fills it. *)
Record Analysis : Type := {
  user_id : string;
  script_text : string;
  script_type : string;
  title : option string;
  overall_score : json;
  virality_prediction : json;
  scores : json;
  strengths : json;
  weaknesses : json;
  improvements : json;
  viral_patterns_detected : json;
  viral_patterns_missing : json;
  analysis_word_count : json;
  estimated_duration : json;
  estimated_retention : json
}.

(** A row of [comparisons], as [compare_scripts] fills it. *)
Record Comparison : Type := {
  comparison_user_id : string;
  winner : json;
  confidence : json;
  reason : json;
  score_a : json;
  score_b : json;
  key_differences : json;
  recommendation : json
}.

(** An object handed to [db.add]. *)
Inductive Row : Type :=
| AnalysisRow (analysis : Analysis)
| ComparisonRow (comparison : Comparison).

(** What one call of the scoring service comes to. *)
Inductive completion : Type :=
| Raises (msg : string)          (* the call raises: transport error, timeout, API error *)
| Unparsable (content : string)  (* a body on which [json.loads] raises *)
| Parsed (value : json).         (* a body that [json.loads] turns into [value] *)

(** The world of one request.  [service n] is what the [n]-th call of the
    scoring service comes to and [api_calls] counts the calls made;
    [current_user] is the ORM object of the session and [stored_user] the
    committed row behind it; [pending] are the objects added to the session
    and [rows] the committed ones; [commit_succeeds] and [refresh_succeeds]
    say how [db.commit()] and [db.refresh()] end. *)
Record World : Type := {
  settings : Settings;
  service : nat -> completion;
  api_calls : nat;
  commit_succeeds : bool;
  refresh_succeeds : bool;
  current_user : User;
  stored_user : User;
  pending : list Row;
  rows : list Row
}.

(** A request as the session dependency hands it over: the user freshly
    loaded, nothing pending, no call made. *)
Definition fresh_world (cfg : Settings) (svc : nat -> completion) (database_up : bool)
    (user : User) (committed : list Row) : World :=
  {| settings := cfg; service := svc; api_calls := 0;
     commit_succeeds := database_up; refresh_succeeds := database_up;
     current_user := user; stored_user := user; pending := []; rows := committed |}.

Definition with_api_calls (n : nat) (w : World) : World :=
  {| settings := settings w; service := service w; api_calls := n;
     commit_succeeds := commit_succeeds w; refresh_succeeds := refresh_succeeds w;
     current_user := current_user w; stored_user := stored_user w;
     pending := pending w; rows := rows w |}.

(** The part of the world a database session owns. *)
Definition with_session (user stored : User) (added committed : list Row) (w : World) : World :=
  {| settings := settings w; service := service w; api_calls := api_calls w;
     commit_succeeds := commit_succeeds w; refresh_succeeds := refresh_succeeds w;
     current_user := user; stored_user := stored;
     pending := added; rows := committed |}.

(** Computations that read and write the world and may raise. *)
Definition M (A : Type) : Type := World -> (exn + A) * World.

Definition ret {A} (a : A) : M A := fun w => (inr a, w).
Definition raise {A} (e : exn) : M A := fun w => (inl e, w).
Definition bind {A B} (m : M A) (k : A -> M B) : M B :=
  fun w => match m w with
           | (inr a, w') => k a w'
           | (inl e, w') => (inl e, w')
           end.
(** [try: m except Exception as e: handler(e)] *)
Definition try_except {A} (m : M A) (handler : exn -> M A) : M A :=
  fun w => match m w with
           | (inr a, w') => (inr a, w')
           | (inl e, w') => handler e w'
           end.
Definition lift {A} (r : exn + A) : M A := fun w => (r, w).
Definition gets {A} (f : World -> A) : M A := fun w => (inr (f w), w).
Definition modify (f : World -> World) : M unit := fun w => (inr tt, f w).

Declare Scope world_scope.
Delimit Scope world_scope with world.
Notation "x <- m ;; k" := (bind m (fun x => k))
  (at level 100, m at next level, right associativity) : world_scope.
Notation "m ;; k" := (bind m (fun _ => k))
  (at level 100, right associativity) : world_scope.
Open Scope world_scope.

(** [await openai.ChatCompletion.acreate(...)] followed by reading
    [response.choices[0].message.content]: one call of the service. *)
Definition acreate (prompt : string) : M completion :=
  fun w => (inr (service w (api_calls w)), with_api_calls (S (api_calls w)) w).

(** [db.add(obj)] *)
Definition db_add (obj : Row) : M unit :=
  modify (fun w => with_session (current_user w) (stored_user w)
                     (pending w ++ [obj]) (rows w) w).

(** [db.commit()]: the session is flushed, or the database refuses. *)
Definition db_commit : M unit :=
  fun w => if commit_succeeds w
           then (inr tt, with_session (current_user w) (current_user w)
                           [] (rows w ++ pending w) w)
           else (inl (DatabaseError "commit failed"), w).

(** [db.refresh(obj)]: the committed row is read back, or the database
    refuses. *)
Definition db_refresh : M unit :=
  fun w => if refresh_succeeds w then (inr tt, w)
           else (inl (DatabaseError "refresh failed"), w).

(** [db.rollback()]: pending objects are dropped and the attributes of the
    loaded objects go back to the committed row. *)
Definition db_rollback : M unit :=
  modify (fun w => with_session (stored_user w) (stored_user w) [] (rows w) w).

(** ** The script analyzer ([ScriptAnalyzer]) *)

Module ScriptAnalyzer.

(** [float(n)] for the length of a list: exact below [2^53]. *)
Definition float_of_int (n : Z) : float := PrimFloat.of_uint63 (Uint63.of_Z n).

(** [int(x)]: truncation towards zero; raises on infinities and NaN. *)
Definition int_of_float (x : float) : exn + Z :=
  match Prim2SF x with
  | S754_zero _ => inr 0
  | S754_finite sign m e =>
      let magnitude := if 0 <=? e then Z.pos m * 2 ^ e else Z.pos m / 2 ^ (- e) in
      inr (if sign then - magnitude else magnitude)
  | S754_infinity _ | S754_nan => inl FloatConversionError
  end.

(** The integer nearest to [n / d], ties to the even one ([0 < d]). *)
Definition round_half_even (n d : Z) : Z :=
  let q := n / d in
  let r := n mod d in
  if 2 * r <? d then q
  else if d <? 2 * r then q + 1
  else if Z.even q then q else q + 1.

(** A number of tenths written with one fractional digit. *)
Definition show_tenths (tenths : Z) : string :=
  pretty (tenths / 10) +:+ "." +:+ pretty (tenths mod 10).

(** [f"{x:.1f}"]: the decimal with one fractional digit nearest to the exact
    value of [x], ties to even. *)
Definition format_1f (x : float) : string :=
  match Prim2SF x with
  | S754_zero sign => (if sign then "-" else "") +:+ "0.0"
  | S754_infinity sign => (if sign then "-" else "") +:+ "inf"
  | S754_nan => "nan"
  | S754_finite sign m e =>
      let tenths :=
        if 0 <=? e then 10 * Z.pos m * 2 ^ e
        else round_half_even (10 * Z.pos m) (2 ^ (- e)) in
      (if sign then "-" else "") +:+ show_tenths tenths
  end.

(** [len(script.split())] *)
Definition word_count (script : string) : Z := Z.of_nat (length (Str.split script)).

(** The body of [_estimate_duration] once the words are counted. *)
Definition duration_of_count (word_count : Z) : exn + string :=
  let minutes := PrimFloat.div (float_of_int word_count) 150%float in
  if PrimFloat.ltb minutes 1%float then
    match int_of_float (PrimFloat.mul minutes 60%float) with
    | inr seconds => inr (pretty seconds +:+ " seconds")
    | inl e => inl e
    end
  else if PrimFloat.ltb minutes 10%float then
    inr (format_1f minutes +:+ " minutes")
  else
    match int_of_float minutes with
    | inr whole => inr (pretty whole +:+ " minutes")
    | inl e => inl e
    end.

(** [_estimate_duration]: 150 words per minute. *)
Definition _estimate_duration (script : string) : exn + string :=
  let word_count := word_count script in
  duration_of_count word_count.

(** ["short" if ... < 500 else "medium" if ... < 1500 else "long"] *)
Definition script_length (word_count : Z) : string :=
  if word_count <? 500 then "short"
  else if word_count <? 1500 then "medium" else "long".

(** What [analyze_script] does with the body of the completion. *)
Definition loads (reply : completion) : M json :=
  match reply with
  | Raises msg => raise (ServiceError msg)
  | Unparsable content => raise (JSONDecodeError content)
  | Parsed value => ret value
  end.

(** [analyze_script]: one call of the scoring service, the metadata added to
    the parsed reply, and every exception turned into a plain [Exception]. *)
Definition analyze_script (script : string) (script_type : string) : M json :=
  try_except
    (reply <- acreate (script +:+ script_type) ;;
     result <- loads reply ;;
     result <- lift (setitem result "word_count" (JInt (word_count script))) ;;
     duration <- lift (_estimate_duration script) ;;
     result <- lift (setitem result "estimated_duration" (JStr duration)) ;;
     result <- lift (setitem result "script_length"
                       (JStr (script_length (word_count script)))) ;;
     ret result)
    (fun e => raise (Exception ("Failed to analyze script: " +:+ str e))).

(** [compare_scripts]: one call of the scoring service, its parsed reply
    returned as it is. *)
Definition compare_scripts (script_a script_b : string) : M json :=
  try_except
    (reply <- acreate (script_a +:+ script_b) ;;
     loads reply)
    (fun e => raise (Exception ("Failed to compare scripts: " +:+ str e))).

(** [generate_improvements]: likewise. *)
Definition generate_improvements (script focus_area : string) : M json :=
  try_except
    (reply <- acreate (focus_area +:+ script) ;;
     loads reply)
    (fun e => raise (Exception ("Failed to generate improvements: " +:+ str e))).

End ScriptAnalyzer.

(** ** Plan catalog and usage policy ([app/core/security.py]) *)

Module Policy.

(** Modelled from the spec: [PlanTier], the enumerated plan tiers of section 3;
    [app/core/security.py] is not among the sources. *)
Inductive PlanTier : Type := free | pro | creator.

#[export] Instance PlanTier_eq_dec : EqDecision PlanTier.
Proof. solve_decision. Defined.

(** Modelled from the spec: the reading of the [plan] column as a tier; any
    other value is an unknown tier (section 4.2). *)
Definition tier_of_plan (plan : string) : option PlanTier :=
  if decide (plan = "free") then Some free
  else if decide (plan = "pro") then Some pro
  else if decide (plan = "creator") then Some creator
  else None.

(** Modelled from the spec: [quota_for] of section 4.2, the static table from
    tier to quota; the values are the configured rate limits. *)
Definition quota_for (cfg : Settings) (tier : PlanTier) : Z :=
  match tier with
  | free => RATE_LIMIT_FREE cfg
  | pro => RATE_LIMIT_PRO cfg
  | creator => RATE_LIMIT_CREATOR cfg
  end.

(** Modelled from the spec: the explicit ordered list of tiers that feature
    gating is defined by (section 4.2). *)
Definition TIER_ORDER : list PlanTier := [free; pro; creator].

(** Modelled from the spec: the rank of a tier is its position in
    [TIER_ORDER]. *)
Fixpoint position (tier : PlanTier) (order : list PlanTier) : nat :=
  match order with
  | [] => O
  | t :: order' => if decide (t = tier) then O else S (position tier order')
  end.

(** Modelled from the spec: the rank that "at least this tier" compares. *)
Definition rank (tier : PlanTier) : nat := position tier TIER_ORDER.

(** Modelled from the spec: [tier_satisfies] of section 4.2. *)
Definition tier_satisfies (tier required_tier : PlanTier) : bool :=
  (rank required_tier <=? rank tier)%nat.

(** Modelled from the spec: [UsageCounter] and [Decision] of sections 3 and
    4.3. *)
Record UsageCounter : Type := {
  analyses_this_period : Z;
  counter_total_analyses : Z
}.

Inductive Decision : Type := Allowed | Denied (reason : string).

(** Modelled from the spec: [authorize] of section 4.3. *)
Definition authorize (cfg : Settings) (counter : UsageCounter) (tier : PlanTier) : Decision :=
  if analyses_this_period counter <? quota_for cfg tier then Allowed
  else Denied "quota_exceeded".

(** Modelled from the spec: [authorize_feature] of section 4.3. *)
Definition authorize_feature (tier required_tier : PlanTier) : Decision :=
  if tier_satisfies tier required_tier then Allowed
  else Denied "plan_upgrade_required".

(** Modelled from the spec: [record] of section 4.3. *)
Definition record (counter : UsageCounter) : UsageCounter :=
  {| analyses_this_period := analyses_this_period counter + 1;
     counter_total_analyses := counter_total_analyses counter + 1 |}.

(** Modelled from the spec: the usage counter of a user, read off the two
    counter columns of the row. *)
Definition counter_of (user : User) : UsageCounter :=
  {| analyses_this_period := analyses_this_month user;
     counter_total_analyses := total_analyses user |}.

(** Modelled from the spec: [check_rate_limit(user)], imported by
    [analyze.py] from [app/core/security.py]: the quota check of section 4.3
    on the user's tier and counter, truthy when allowed; an unknown tier is a
    [ConfigurationError] (section 4.2). *)
Definition check_rate_limit (cfg : Settings) (user : User) : exn + bool :=
  match tier_of_plan (plan user) with
  | None => inl (ConfigurationError (plan user))
  | Some tier =>
      match authorize cfg (counter_of user) tier with
      | Allowed => inr true
      | Denied _ => inr false
      end
  end.

(** Modelled from the spec: [require_plan(required)], imported by
    [analyze.py] from [app/core/security.py]: the feature gate of section
    4.3; it hands the user over when allowed. *)
Definition require_plan (required : string) (user : User) : exn + User :=
  match tier_of_plan (plan user), tier_of_plan required with
  | Some tier, Some required_tier =>
      match authorize_feature tier required_tier with
      | Allowed => inr user
      | Denied _ => inl PlanUpgradeRequired
      end
  | None, _ => inl (ConfigurationError (plan user))
  | _, None => inl (ConfigurationError required)
  end.

End Policy.

(** ** The analysis endpoints ([app/api/v1/analyze.py]) *)

Module Api.
Import ViralPatternDetector.

(** [AnalyzeScriptRequest] *)
Record AnalyzeScriptRequest : Type := {
  request_script : string;
  request_script_type : string;
  request_title : option string
}.

(** [script: str = Field(..., min_length=50, max_length=50000)]: the
    framework hands the handler validated requests only. *)
Definition SCRIPT_MIN_LENGTH : Z := 50.
Definition SCRIPT_MAX_LENGTH : Z := 50000.

Definition valid_script (script : string) : Prop :=
  SCRIPT_MIN_LENGTH ≤ Z.of_nat (String.length script) ≤ SCRIPT_MAX_LENGTH.

Definition HTTP_429_TOO_MANY_REQUESTS : Z := 429.
Definition HTTP_500_INTERNAL_SERVER_ERROR : Z := 500.

(** [current_user.analyses_this_month += 1] *)
Definition bump_analyses_this_month : M unit :=
  modify (fun w =>
    let u := current_user w in
    with_session {| id := id u; plan := plan u;
                    analyses_this_month := analyses_this_month u + 1;
                    total_analyses := total_analyses u |}
                 (stored_user w) (pending w) (rows w) w).

(** [current_user.total_analyses += 1] *)
Definition bump_total_analyses : M unit :=
  modify (fun w =>
    let u := current_user w in
    with_session {| id := id u; plan := plan u;
                    analyses_this_month := analyses_this_month u;
                    total_analyses := total_analyses u + 1 |}
                 (stored_user w) (pending w) (rows w) w).

(** The keyword arguments of [Analysis(...)], evaluated in the order they are
    written. *)
Definition build_analysis (user : User) (request : AnalyzeScriptRequest)
    (result : json) : exn + Analysis :=
  match getitem result "overall_score" with inl e => inl e | inr v_overall =>
  match getitem result "virality_prediction" with inl e => inl e | inr v_virality =>
  match getitem result "scores" with inl e => inl e | inr v_scores =>
  match getitem result "strengths" with inl e => inl e | inr v_strengths =>
  match getitem result "weaknesses" with inl e => inl e | inr v_weaknesses =>
  match getitem result "improvements" with inl e => inl e | inr v_improvements =>
  match get result "viral_patterns_detected" (JArr []) with inl e => inl e | inr v_detected =>
  match get result "viral_patterns_missing" (JArr []) with inl e => inl e | inr v_missing =>
  match getitem result "word_count" with inl e => inl e | inr v_words =>
  match getitem result "estimated_duration" with inl e => inl e | inr v_duration =>
  match get result "estimated_retention" JNull with inl e => inl e | inr v_retention =>
  inr {| user_id := id user;
         script_text := request_script request;
         script_type := request_script_type request;
         title := request_title request;
         overall_score := v_overall;
         virality_prediction := v_virality;
         scores := v_scores;
         strengths := v_strengths;
         weaknesses := v_weaknesses;
         improvements := v_improvements;
         viral_patterns_detected := v_detected;
         viral_patterns_missing := v_missing;
         analysis_word_count := v_words;
         estimated_duration := v_duration;
         estimated_retention := v_retention |}
  end end end end end end end end end end end.

(** [POST /analyze] *)
Definition analyze_script (request : AnalyzeScriptRequest) : M Analysis :=
  user <- gets current_user ;;
  cfg <- gets settings ;;
  allowed <- lift (Policy.check_rate_limit cfg user) ;;
  if negb allowed then
    raise (HTTPException HTTP_429_TOO_MANY_REQUESTS
             "Monthly limit reached. Upgrade to Pro for more analyses.")
  else
    try_except
      (result <- ScriptAnalyzer.analyze_script
                   (request_script request) (request_script_type request) ;;
       let detected_patterns := detect_patterns (request_script request) in
       result <- lift (setitem result "viral_patterns_detected"
                         (JArr (JStr <$> detected_patterns))) ;;
       analysis <- lift (build_analysis user request result) ;;
       db_add (AnalysisRow analysis) ;;
       bump_analyses_this_month ;;
       bump_total_analyses ;;
       db_commit ;;
       db_refresh ;;
       ret analysis)
      (fun e =>
         db_rollback ;;
         raise (HTTPException HTTP_500_INTERNAL_SERVER_ERROR
                  ("Analysis failed: " +:+ str e))).

(** The keyword arguments of [Comparison(...)]. *)
Definition build_comparison (user : User) (result : json) : exn + Comparison :=
  match getitem result "winner" with inl e => inl e | inr v_winner =>
  match getitem result "confidence" with inl e => inl e | inr v_confidence =>
  match getitem result "reason" with inl e => inl e | inr v_reason =>
  match getitem result "score_a" with inl e => inl e | inr v_score_a =>
  match getitem result "score_b" with inl e => inl e | inr v_score_b =>
  match getitem result "key_differences" with inl e => inl e | inr v_differences =>
  match getitem result "recommendation" with inl e => inl e | inr v_recommendation =>
  inr {| comparison_user_id := id user;
         winner := v_winner;
         confidence := v_confidence;
         reason := v_reason;
         score_a := v_score_a;
         score_b := v_score_b;
         key_differences := v_differences;
         recommendation := v_recommendation |}
  end end end end end end end.

(** [Depends(require_plan(required))]: the dependency runs before the body of
    the handler. *)
Definition depends_require_plan (required : string) : M User :=
  user <- gets current_user ;;
  lift (Policy.require_plan required user).

(** [POST /compare] *)
Definition compare_scripts (script_a script_b : string) : M json :=
  user <- depends_require_plan "pro" ;;
  try_except
    (result <- ScriptAnalyzer.compare_scripts script_a script_b ;;
     comparison <- lift (build_comparison user result) ;;
     db_add (ComparisonRow comparison) ;;
     db_commit ;;
     ret result)
    (fun e =>
       db_rollback ;;
       raise (HTTPException HTTP_500_INTERNAL_SERVER_ERROR
                ("Comparison failed: " +:+ str e))).

(** [POST /improve] *)
Definition improve_script (script focus_area : string) : M json :=
  user <- depends_require_plan "pro" ;;
  try_except
    (ScriptAnalyzer.generate_improvements script focus_area)
    (fun e =>
       raise (HTTPException HTTP_500_INTERNAL_SERVER_ERROR
                ("Improvement generation failed: " +:+ str e))).

(** The plan-limit lookup of [GET /stats]:
    [plan_limits = {"free": 3, "pro": 50, "creator": 500}] and
    [plan_limits.get(current_user.plan, 3)]. *)
Definition plan_limits : gmap string Z :=
  {[ "free" := 3; "pro" := 50; "creator" := 500 ]}.

Definition plan_limit (user : User) : Z := default 3 (plan_limits !! plan user).

(** The fields of [UserStats] that come from the user row; the average and
    the best score are aggregates the database computes. *)
Record UserStats : Type := {
  stats_total_analyses : Z;
  stats_analyses_this_month : Z;
  stats_plan_limit : Z;
  stats_remaining_analyses : Z
}.

(** [GET /stats] *)
Definition get_stats : M UserStats :=
  user <- gets current_user ;;
  ret {| stats_total_analyses := total_analyses user;
         stats_analyses_this_month := analyses_this_month user;
         stats_plan_limit := plan_limit user;
         stats_remaining_analyses := Z.max 0 (plan_limit user - analyses_this_month user) |}.

End Api.

(** * Vocabulary of the properties *)

Section Vocabulary.
Import Re ViralPatternDetector ScriptAnalyzer Api.

(** The names [detect_patterns] can report, in library order. *)
Definition pattern_names : list string :=
  [ "Problem Agitate Solution"; "Curiosity Gap"; "Social Proof";
    "Transformation"; "Contrarian"; "Personal Story" ].

(** The patterns of a library that fire on a script. *)
Definition firing (script : string) (library : list (string * regex)) :
    list (string * regex) :=
  filter (fun item => search item.2 script = true) library.

(** The iterations of a repetition, put end to end. *)
Definition flatten (us : list string) : string := foldr String.append "" us.

(** The language of a pattern: the strings it matches as a whole. *)
Fixpoint matches (r : regex) (u : string) : Prop :=
  match r with
  | Eps => u = ""
  | Chr c => ∃ d, u = String d "" ∧ chr_eq c d = true
  | Any => ∃ d, u = String d "" ∧ d ≠ newline
  | Digit => ∃ d, u = String d "" ∧ Str.isdigit d = true
  | Cls cs => ∃ d, u = String d "" ∧ existsb (fun c => chr_eq c d) cs = true
  | Cat r1 r2 => ∃ u1 u2, u = u1 +:+ u2 ∧ matches r1 u1 ∧ matches r2 u2
  | Alt r1 r2 => matches r1 u ∨ matches r2 u
  | Repeat lo hi r0 =>
      ∃ us, u = flatten us ∧ (lo ≤ length us)%nat
            ∧ (∀ h, hi = Some h → (length us ≤ h)%nat)
            ∧ Forall (matches r0) us
  end.

(** The scenario script of the specification. *)
Definition scenario_script : string :=
  "Did you know that 95% of people quit... I realized I had to change.".

(** What [ScriptAnalyzer.analyze_script] makes of the reply to its call. *)
Definition analysis_of_reply (script : string) (reply : completion) : exn + json :=
  match reply with
  | Raises msg => inl (Exception ("Failed to analyze script: " +:+ msg))
  | Unparsable content =>
      inl (Exception ("Failed to analyze script: " +:+ str (JSONDecodeError content)))
  | Parsed (JObj m) =>
      match _estimate_duration script with
      | inr duration =>
          inr (JObj (<["script_length" := JStr (script_length (word_count script))]>
                    (<["estimated_duration" := JStr duration]>
                    (<["word_count" := JInt (word_count script)]> m))))
      | inl e => inl (Exception ("Failed to analyze script: " +:+ str e))
      end
  | Parsed _ =>
      inl (Exception ("Failed to analyze script: "
                      +:+ "object does not support item assignment"))
  end.

(** The answer of [POST /analyze] to a user at the limit. *)
Definition limit_reached : exn :=
  HTTPException 429 "Monthly limit reached. Upgrade to Pro for more analyses.".

(** The session after [db.rollback()]. *)
Definition rolled_back (w w' : World) : Prop :=
  current_user w' = stored_user w ∧ stored_user w' = stored_user w
  ∧ pending w' = [] ∧ rows w' = rows w.

(** A script on which no pattern fires, a reply the service may send, and a
    free user. *)
Definition plain_request : AnalyzeScriptRequest :=
  {| request_script := "Today we bake bread with flour, water, salt and a little patience.";
     request_script_type := "tutorial";
     request_title := None |}.

Definition scored_reply (overall : json) : json :=
  JObj {[ "overall_score" := overall;
          "virality_prediction" := JStr "High";
          "scores" := JObj {[ "hook" := JInt 9 ]};
          "strengths" := JArr [];
          "weaknesses" := JArr [];
          "improvements" := JArr [] ]}.

Definition free_user (used : Z) : User :=
  {| id := "u1"; plan := "free"; analyses_this_month := used; total_analyses := used |}.

(** The number of whitespace-separated tokens of a text: the positions where
    a character that is not whitespace follows a whitespace character or
    opens the text. *)
Fixpoint token_starts (after_space : bool) (s : string) : nat :=
  match s with
  | EmptyString => 0
  | String c s' =>
      ((if negb (Str.isspace c) && after_space then 1 else 0)
       + token_starts (Str.isspace c) s')%nat
  end.

Definition count_tokens (s : string) : nat := token_starts true s.

(** The reading-rate model in exact arithmetic: 150 words per minute, whole
    seconds under a minute, the nearest tenth of a minute under ten minutes,
    whole minutes from there on. *)
Definition duration_model (words : Z) : string :=
  if words <? 150 then pretty (words * 60 / 150) +:+ " seconds"
  else if words <? 1500 then
    show_tenths (round_half_even (words * 10) 150) +:+ " minutes"
  else pretty (words / 150) +:+ " minutes".

(** The float computation of the code against the model, at one word count
    and over a range of them. *)
Definition agrees (words : Z) : bool :=
  match duration_of_count words with
  | inr duration => String.eqb duration (duration_model words)
  | inl _ => false
  end.

Fixpoint agrees_from (from : Z) (steps : nat) : bool :=
  match steps with
  | O => true
  | S steps' => if agrees from then agrees_from (from + 1) steps' else false
  end.

(** A script of at most [SCRIPT_MAX_LENGTH] characters holds at most this
    many words. *)
Definition checked_words : Z := 25000.

End Vocabulary.

(** * Properties *)

(** ** The matcher finds what the patterns denote *)

Section Matcher.
Import Re.

Lemma string_app_nil (v : string) : "" +:+ v = v.
Proof. reflexivity. Qed.

Lemma string_app_cons c (u v : string) : String c u +:+ v = String c (u +:+ v).
Proof. reflexivity. Qed.

Lemma string_app_assoc (u v w : string) : (u +:+ v) +:+ w = u +:+ (v +:+ w).
Proof.
  induction u as [|c u IH]; [done|].
  by rewrite !string_app_cons, IH.
Qed.

Lemma string_app_length (u v : string) :
  String.length (u +:+ v) = (String.length u + String.length v)%nat.
Proof.
  induction u as [|c u IH]; [done|].
  rewrite string_app_cons. simpl. by rewrite IH.
Qed.

Ltac string_simpl := rewrite ?string_app_cons, ?string_app_nil in *.

(** Rounds that match the empty string can be left out, down to the rounds
    owed. *)
Lemma trim_empty_rounds (P : string → Prop) us : ∀ lo m,
  Forall P us → (lo ≤ length us)%nat → (String.length (flatten us) ≤ m)%nat →
  ∃ us', flatten us' = flatten us ∧ Forall P us'
         ∧ (lo ≤ length us' ≤ lo + m)%nat.
Proof.
  induction us as [|u us IH]; intros lo m HP Hlo Hm.
  - exists []. simpl in *. repeat split; [done | lia | lia].
  - apply Forall_cons in HP as [Hu HP]. simpl in Hlo, Hm.
    rewrite string_app_length in Hm.
    destruct u as [|c u].
    + destruct (decide (lo ≤ length us)%nat) as [Hle|Hgt].
      * destruct (IH lo m HP Hle) as (us' & Heq & HP' & Hlen); [simpl in Hm; lia|].
        exists us'. by rewrite Heq.
      * exists ("" :: us). repeat split; [by constructor | simpl; lia | simpl; lia].
    + destruct (IH (Nat.pred lo) (m - S (String.length u))%nat HP) as (us' & Heq & HP' & Hlen).
      { lia. }
      { simpl in Hm. lia. }
      exists (String c u :: us'). simpl. rewrite Heq.
      repeat split; [by constructor | lia | simpl in Hm; lia].
Qed.

Section Rounds.
Variable step : string → (string → bool) → bool.
Variable P : string → Prop.
Hypothesis step_spec : ∀ s k,
  step s k = true ↔ ∃ u v, s = u +:+ v ∧ P u ∧ k v = true.

Lemma repeat_here_spec k n : ∀ lo s,
  repeat_here step k n lo s = true ↔
  ∃ us v, s = flatten us +:+ v ∧ Forall P us
          ∧ (lo ≤ length us ≤ n)%nat ∧ k v = true.
Proof.
  induction n as [|n IH]; intros lo s; simpl.
  - split.
    + destruct lo; [|discriminate]. intros Hk. exists [], s. by repeat split.
    + intros (us & v & -> & _ & [Hlo Hn] & Hk).
      destruct us; [|simpl in Hn; lia]. destruct lo; [done | simpl in Hlo; lia].
  - split.
    + destruct (step s _) eqn:Hstep.
      * intros _. apply step_spec in Hstep as (u & v' & -> & Hu & Hrest).
        apply IH in Hrest as (us & v & -> & Hus & Hlen & Hk).
        exists (u :: us), v. simpl. rewrite string_app_assoc.
        repeat split; [by constructor | lia | lia | done].
      * destruct lo; [|discriminate]. intros Hk. exists [], s.
        repeat split; [done | simpl; lia | simpl; lia | done].
    + intros (us & v & -> & Hus & [Hlo Hn] & Hk).
      destruct us as [|u us].
      * destruct lo; [|simpl in Hlo; lia]. simpl. rewrite string_app_nil, Hk.
        by destruct (step v _).
      * apply Forall_cons in Hus as [Hu Hus].
        assert (step (flatten (u :: us) +:+ v)
                  (fun s' => repeat_here step k n (Nat.pred lo) s') = true) as ->; [|done].
        apply step_spec. exists u, (flatten us +:+ v).
        simpl. rewrite string_app_assoc. repeat split; [done|].
        apply IH. exists us, v. simpl in Hlo, Hn. repeat split; [done | lia | lia | done].
Qed.
End Rounds.

(** [match_here] succeeds exactly when a prefix is in the language of the
    pattern and the continuation accepts the rest. *)
Lemma match_here_spec r : ∀ s k,
  match_here r s k = true ↔ ∃ u v, s = u +:+ v ∧ matches r u ∧ k v = true.
Proof.
  induction r as [|c| | |cs|r1 IH1 r2 IH2|r1 IH1 r2 IH2|lo hi r0 IH]; intros s k; simpl.
  - split; [intros Hk; by exists "", s | by intros (u & v & -> & -> & Hk)].
  - split.
    + destruct s as [|d s]; [discriminate|]. destruct (chr_eq c d) eqn:Hc; [|discriminate].
      intros Hk. exists (String d ""), s. repeat split; [|done]. by exists d.
    + intros (u & v & -> & (d & -> & Hc) & Hk).
      rewrite string_app_cons, string_app_nil. by rewrite Hc.
  - split.
    + destruct s as [|d s]; [discriminate|].
      destruct (Ascii.eqb d newline) eqn:Hd; [discriminate|].
      intros Hk. exists (String d ""), s. repeat split; [|done].
      exists d. split; [done|]. by apply Ascii.eqb_neq.
    + intros (u & v & -> & (d & -> & Hd) & Hk).
      rewrite string_app_cons, string_app_nil.
      by rewrite (proj2 (Ascii.eqb_neq d newline) Hd).
  - split.
    + destruct s as [|d s]; [discriminate|]. destruct (Str.isdigit d) eqn:Hd; [|discriminate].
      intros Hk. exists (String d ""), s. repeat split; [|done]. by exists d.
    + intros (u & v & -> & (d & -> & Hd) & Hk).
      rewrite string_app_cons, string_app_nil. by rewrite Hd.
  - split.
    + destruct s as [|d s]; [discriminate|].
      destruct (existsb _ cs) eqn:Hd; [|discriminate].
      intros Hk. exists (String d ""), s. repeat split; [|done]. by exists d.
    + intros (u & v & -> & (d & -> & Hd) & Hk).
      rewrite string_app_cons, string_app_nil. by rewrite Hd.
  - rewrite IH1. split.
    + intros (u1 & v1 & -> & Hu1 & Hrest).
      apply IH2 in Hrest as (u2 & v & -> & Hu2 & Hk).
      exists (u1 +:+ u2), v. rewrite string_app_assoc. repeat split; [|done].
      by exists u1, u2.
    + intros (u & v & -> & (u1 & u2 & -> & Hu1 & Hu2) & Hk).
      exists u1, (u2 +:+ v). rewrite string_app_assoc. repeat split; [done|].
      apply IH2. by exists u2, v.
  - split.
    + destruct (match_here r1 s k) eqn:H1.
      * intros _. apply IH1 in H1 as (u & v & -> & Hu & Hk). exists u, v. by auto.
      * intros H2. apply IH2 in H2 as (u & v & -> & Hu & Hk). exists u, v. by auto.
    + intros (u & v & -> & [Hu|Hu] & Hk).
      * assert (match_here r1 (u +:+ v) k = true) as ->; [|done].
        apply IH1. by exists u, v.
      * destruct (match_here r1 (u +:+ v) k); [done|].
        apply IH2. by exists u, v.
  - rewrite (repeat_here_spec (match_here r0) (matches r0) IH). split.
    + intros (us & v & -> & Hus & [Hlo Hn] & Hk).
      exists (flatten us), v. repeat split; [|done].
      exists us. repeat split; [done| |done].
      intros h ->. exact Hn.
    + intros (u & v & -> & (us & -> & Hlo & Hhi & Hus) & Hk).
      destruct hi as [h|].
      * exists us, v. repeat split; [done | done | by apply Hhi | done].
      * destruct (trim_empty_rounds (matches r0) us lo
                    (String.length (flatten us +:+ v)) Hus Hlo)
          as (us' & Heq & Hus' & Hlen).
        { rewrite string_app_length. lia. }
        exists us', v. rewrite Heq.
        repeat split; [done | apply Hlen | apply Hlen | done].
Qed.

Lemma match_at_start r s :
  match_here r s (fun _ => true) = true ↔ ∃ u v, s = u +:+ v ∧ matches r u.
Proof.
  rewrite match_here_spec. split.
  - intros (u & v & Hs & Hu & _). by exists u, v.
  - intros (u & v & Hs & Hu). by exists u, v.
Qed.

(** [re.search] is truthy exactly when some part of the text is in the
    language of the pattern. *)
Lemma search_spec r s :
  search r s = true ↔ ∃ before u after, s = before +:+ u +:+ after ∧ matches r u.
Proof.
  induction s as [|c s IH]; simpl.
  - split.
    + destruct (match_here r "" _) eqn:Hhere; [|discriminate]. intros _.
      apply match_at_start in Hhere as (u & v & Hs & Hu). by exists "", u, v.
    + intros (before & u & after & Hs & Hu).
      destruct before; [|discriminate]. rewrite string_app_nil in Hs.
      assert (match_here r "" (fun _ => true) = true) as ->; [|done].
      apply match_at_start. by exists u, after.
  - split.
    + destruct (match_here r (String c s) _) eqn:Hhere.
      * intros _. apply match_at_start in Hhere as (u & v & Hs & Hu).
        by exists "", u, v.
      * intros Hrest. apply IH in Hrest as (before & u & after & -> & Hu).
        by exists (String c before), u, after.
    + intros (before & u & after & Hs & Hu).
      destruct before as [|c' before].
      * rewrite string_app_nil in Hs.
        assert (match_here r (String c s) (fun _ => true) = true) as ->; [|done].
        apply match_at_start. by exists u, after.
      * rewrite string_app_cons in Hs. injection Hs as -> ->.
        assert (search r (before +:+ u +:+ after) = true) as ->.
        { apply IH. by exists before, u, after. }
        by destruct (match_here r _ _).
Qed.

End Matcher.
(** ** The pattern detector *)

Section Detector.
Import Re ViralPatternDetector.

Lemma detect_loop script library detected :
  fold_left (detect_step script) library detected
  = (detected ++ (display_name <$> (firing script library).*1))%list.
Proof.
  revert detected.
  induction library as [|[name r] library IH]; intros detected; simpl.
  - by rewrite app_nil_r.
  - rewrite IH. unfold detect_step, firing. simpl.
    rewrite filter_cons. simpl.
    destruct (search r script) eqn:Hr.
    + rewrite decide_True by done. simpl. by rewrite <- app_assoc.
    + rewrite decide_False by done. done.
Qed.

(** The loop of [detect_patterns] as a comprehension. *)
Lemma detect_patterns_firing script :
  detect_patterns script = display_name <$> (firing script VIRAL_PATTERNS).*1.
Proof. unfold detect_patterns. by rewrite detect_loop. Qed.

Lemma display_names_of_library :
  display_name <$> VIRAL_PATTERNS.*1 = pattern_names.
Proof. reflexivity. Qed.

Lemma pattern_names_NoDup : NoDup pattern_names.
Proof. apply (bool_decide_unpack (NoDup pattern_names)). vm_compute. exact I. Qed.

Lemma detect_patterns_sublist script :
  detect_patterns script `sublist_of` pattern_names.
Proof.
  rewrite detect_patterns_firing, <- display_names_of_library.
  do 2 apply fmap_sublist. unfold firing. apply sublist_filter.
Qed.

Lemma elem_of_detect_patterns script name :
  name ∈ detect_patterns script ↔
  ∃ key r, (key, r) ∈ VIRAL_PATTERNS ∧ search r script = true ∧ name = display_name key.
Proof.
  rewrite detect_patterns_firing. unfold firing. split.
  - intros H. apply list_elem_of_fmap in H as (key & -> & H).
    apply list_elem_of_fmap in H as ([key' r] & -> & H).
    apply list_elem_of_filter in H as [Hr H]. by exists key', r.
  - intros (key & r & H & Hr & ->).
    apply list_elem_of_fmap. exists key. split; [done|].
    apply list_elem_of_fmap. exists (key, r). split; [done|].
    by apply list_elem_of_filter.
Qed.

Lemma library_keys_are_not_names key :
  key ∈ VIRAL_PATTERNS.*1 → key ∉ pattern_names.
Proof.
  intros Hkey Hname.
  assert (forallb (fun k => negb (bool_decide (k ∈ pattern_names))) VIRAL_PATTERNS.*1 = true)
    as Hall by (vm_compute; reflexivity).
  rewrite forallb_forall in Hall.
  apply list_elem_of_In, Hall, negb_true_iff, bool_decide_eq_false in Hkey.
  contradiction.
Qed.

(** The detector reads nothing but its argument: two calls on one script
    agree, and without a firing pattern nothing is reported. *)
Lemma detect_patterns_nothing_fires script :
  (∀ key r, (key, r) ∈ VIRAL_PATTERNS → search r script = false) →
  detect_patterns script = [].
Proof.
  intros Hnone.
  destruct (detect_patterns script) as [|name names] eqn:Hdetected; [done|].
  assert (name ∈ detect_patterns script) as Hin by (rewrite Hdetected; left).
  apply elem_of_detect_patterns in Hin as (key & r & Hlib & Hfires & _).
  rewrite (Hnone key r Hlib) in Hfires. discriminate.
Qed.

(** C10: for every script, [detect_patterns] returns a duplicate-free list
    drawn from the six patterns of the library, in library order, and each
    name it returns is the library key with underscores replaced by spaces
    and title-cased (["problem_agitate_solution"] is reported as
    ["Problem Agitate Solution"]), never the raw key. *)
Theorem detect_patterns_reports_display_names (script : string) :
  length VIRAL_PATTERNS = 6%nat
  ∧ detect_patterns script `sublist_of`
      [ "Problem Agitate Solution"; "Curiosity Gap"; "Social Proof";
        "Transformation"; "Contrarian"; "Personal Story" ]
  ∧ NoDup (detect_patterns script)
  ∧ (∀ name, name ∈ detect_patterns script ↔
       ∃ key r, (key, r) ∈ VIRAL_PATTERNS ∧ search r script = true
                ∧ name = Str.title (Str.replace "_" " " key))
  ∧ Str.title (Str.replace "_" " " "problem_agitate_solution") = "Problem Agitate Solution"
  ∧ (∀ key, key ∈ VIRAL_PATTERNS.*1 → key ∉ detect_patterns script).
Proof.
  split; [reflexivity|].
  split; [apply detect_patterns_sublist|].
  split.
  { apply (sublist_NoDup _ pattern_names);
      [apply pattern_names_NoDup | apply detect_patterns_sublist]. }
  split; [apply elem_of_detect_patterns|].
  split; [reflexivity|].
  intros key Hkey Hin.
  apply (library_keys_are_not_names key Hkey).
  eapply sublist_subseteq; [apply detect_patterns_sublist | exact Hin].
Qed.

(** On the scenario script the key of the pattern that fires is not what is
    reported. *)
Lemma detect_patterns_reports_display_names_witness :
  ("personal_story" ∉ detect_patterns scenario_script)
  ∧ "Personal Story" ∈ detect_patterns scenario_script.
Proof.
  destruct (detect_patterns_reports_display_names scenario_script)
    as (_ & _ & _ & Hnames & _ & Hkeys).
  split.
  - apply Hkeys. vm_compute. do 5 right. left.
  - apply Hnames. exists "personal_story", personal_story.
    split; [do 5 right; left | split; vm_compute; reflexivity].
Defined.

(** C8, as stated, fails: on the scenario script the social-proof pattern does
    not fire (the digits are followed by a percent sign where the pattern
    wants an optional k or m and a space), so its name is not reported. *)
Lemma scenario_reports_no_social_proof :
  search social_proof scenario_script = false
  ∧ "Social Proof" ∉ detect_patterns scenario_script.
Proof.
  split; [vm_compute; reflexivity|].
  replace (detect_patterns scenario_script) with ["Personal Story"]
    by (vm_compute; reflexivity).
  intros H. apply list_elem_of_singleton in H. discriminate.
Qed.

(** C8, amended: on the scenario script [detect_patterns] reports exactly
    the personal-story pattern.  It fires from the [i] of ["Did"] to
    ["realized"]; the tail ["I realized I had to change."] alone does not
    fire it, for want of the twenty characters in between.  The social-proof
    pattern does not fire; it does once the digits are directly followed by
    a space and the noun. *)
Theorem scenario_reports_personal_story_only :
  detect_patterns scenario_script = ["Personal Story"]
  ∧ search personal_story scenario_script = true
  ∧ search personal_story "I realized I had to change." = false
  ∧ search social_proof scenario_script = false
  ∧ detect_patterns "Did you know that 95 people quit... I realized I had to change."
    = ["Social Proof"; "Personal Story"].
Proof. repeat split; vm_compute; reflexivity. Qed.

End Detector.

(** ** Word count and estimated duration *)

Section Duration.
Import ScriptAnalyzer Api.

Lemma append_char_nonempty cur c : cur +:+ String c "" ≠ "".
Proof. by destruct cur. Qed.

(** The scanning loop counts one token per start. *)
Lemma split_from_length cur s :
  length (Str.split_from cur s)
  = if decide (cur = "") then token_starts true s else S (token_starts false s).
Proof.
  revert cur. induction s as [|c s IH]; intros cur; simpl.
  - by destruct (decide (cur = "")).
  - destruct (Str.isspace c); simpl.
    + destruct (decide (cur = "")); simpl; rewrite IH; by rewrite decide_True.
    + rewrite IH, decide_False by apply append_char_nonempty.
      by destruct (decide (cur = "")).
Qed.

Lemma word_count_tokens script : word_count script = Z.of_nat (count_tokens script).
Proof.
  unfold word_count, Str.split, count_tokens.
  by rewrite split_from_length, decide_True.
Qed.

(** A token needs a character, and two tokens a separator between them. *)
Lemma token_starts_bound after_space s :
  (2 * token_starts after_space s
   ≤ String.length s + (if after_space then 1 else 0))%nat.
Proof.
  revert after_space. induction s as [|c s IH]; intros after_space; simpl.
  - lia.
  - pose proof (IH (Str.isspace c)) as H.
    destruct (Str.isspace c), after_space; simpl in *; lia.
Qed.

Lemma word_count_bound script :
  2 * word_count script ≤ Z.of_nat (String.length script) + 1.
Proof.
  rewrite word_count_tokens. unfold count_tokens.
  pose proof (token_starts_bound true script). simpl in *. lia.
Qed.

Lemma valid_script_words script :
  valid_script script → 0 ≤ word_count script ≤ checked_words.
Proof.
  unfold valid_script, SCRIPT_MAX_LENGTH, checked_words. intros [_ Hmax].
  pose proof (word_count_bound script). unfold word_count in *. lia.
Qed.

Lemma agrees_from_sound steps : ∀ from,
  agrees_from from steps = true →
  ∀ words, from ≤ words < from + Z.of_nat steps → agrees words = true.
Proof.
  induction steps as [|steps IH]; intros from Hrun words Hrange.
  - lia.
  - simpl in Hrun. destruct (agrees from) eqn:Hfrom; [|discriminate].
    destruct (decide (words = from)) as [->|Hne]; [done|].
    apply (IH (from + 1) Hrun). lia.
Qed.

(** Every word count up to [checked_words], one after the other. *)
Lemma agrees_checked : agrees_from 0 (Z.to_nat (checked_words + 1)) = true.
Proof. vm_compute. reflexivity. Qed.

(** On those word counts the float computation never raises and prints what
    the exact model prints. *)
Lemma duration_of_count_model words :
  0 ≤ words ≤ checked_words →
  duration_of_count words = inr (duration_model words).
Proof.
  intros Hrange.
  pose proof (agrees_from_sound _ _ agrees_checked words) as Hagree.
  unfold agrees in Hagree.
  destruct (duration_of_count words) as [e|duration].
  - discriminate Hagree. lia.
  - f_equal. apply String.eqb_eq, Hagree. lia.
Qed.

Lemma estimate_duration_model script :
  word_count script ≤ checked_words →
  _estimate_duration script = inr (duration_model (word_count script)).
Proof.
  intros Hbound. unfold _estimate_duration.
  apply duration_of_count_model. unfold word_count in *. lia.
Qed.

(** C7: the word count of a script is the number of its whitespace-separated
    tokens, and the estimated duration follows the model of 150 words per
    minute: whole seconds under one minute, minutes with one decimal under
    ten minutes, whole minutes from there on (for the scripts the request
    schema admits); "one two three" has 3 words, 150 words give
    "1.0 minutes" and 30 words give "12 seconds". *)
Theorem word_count_and_duration (script : string) :
  word_count script = Z.of_nat (count_tokens script)
  ∧ (word_count script < 150 →
     _estimate_duration script
     = inr (pretty (word_count script * 60 / 150) +:+ " seconds"))
  ∧ (150 ≤ word_count script < 1500 →
     _estimate_duration script
     = inr (show_tenths (round_half_even (word_count script * 10) 150) +:+ " minutes"))
  ∧ (1500 ≤ word_count script →
     Z.of_nat (String.length script) ≤ SCRIPT_MAX_LENGTH →
     _estimate_duration script = inr (pretty (word_count script / 150) +:+ " minutes"))
  ∧ word_count "one two three" = 3
  ∧ (word_count script = 150 → _estimate_duration script = inr "1.0 minutes")
  ∧ (word_count script = 30 → _estimate_duration script = inr "12 seconds").
Proof.
  split; [apply word_count_tokens|].
  split.
  { intros H. rewrite estimate_duration_model by (unfold checked_words; lia).
    unfold duration_model. by rewrite (proj2 (Z.ltb_lt _ _)) by lia. }
  split.
  { intros H. rewrite estimate_duration_model by (unfold checked_words; lia).
    unfold duration_model.
    rewrite (proj2 (Z.ltb_ge _ _)) by lia.
    by rewrite (proj2 (Z.ltb_lt _ _)) by lia. }
  split.
  { intros H Hlength.
    pose proof (word_count_bound script) as Hwords.
    unfold SCRIPT_MAX_LENGTH in Hlength.
    rewrite estimate_duration_model by (unfold checked_words; lia).
    unfold duration_model.
    by rewrite !(proj2 (Z.ltb_ge _ _)) by lia. }
  split; [reflexivity|].
  split.
  - intros H. rewrite estimate_duration_model by (unfold checked_words; lia).
    rewrite H. reflexivity.
  - intros H. rewrite estimate_duration_model by (unfold checked_words; lia).
    rewrite H. reflexivity.
Qed.

(** At most 50000 characters hold at most 25000 words, on which the float
    computation and the exact model agree. *)
Lemma estimate_duration_valid script :
  valid_script script →
  _estimate_duration script = inr (duration_model (word_count script)).
Proof.
  intros Hvalid. apply estimate_duration_model.
  by apply valid_script_words.
Qed.

(** Scripts of 3, 30, 150, 300 and 1600 words. *)
Lemma word_count_and_duration_witness :
  _estimate_duration "one two three" = inr "1 seconds"
  ∧ _estimate_duration (String.concat " " (replicate 30 "word")) = inr "12 seconds"
  ∧ _estimate_duration (String.concat " " (replicate 150 "word")) = inr "1.0 minutes"
  ∧ _estimate_duration (String.concat " " (replicate 300 "word")) = inr "2.0 minutes"
  ∧ _estimate_duration (String.concat " " (replicate 1600 "a")) = inr "10 minutes".
Proof.
  split; [|split; [|split; [|split]]].
  - apply (proj1 (proj2 (word_count_and_duration "one two three"))).
    vm_compute. reflexivity.
  - apply (proj2 (proj2 (proj2 (proj2 (proj2 (proj2
             (word_count_and_duration (String.concat " " (replicate 30 "word"))))))))).
    vm_compute. reflexivity.
  - apply (proj1 (proj2 (proj2 (proj2 (proj2 (proj2
             (word_count_and_duration (String.concat " " (replicate 150 "word"))))))))).
    vm_compute. reflexivity.
  - apply (proj1 (proj2 (proj2
             (word_count_and_duration (String.concat " " (replicate 300 "word")))))).
    vm_compute. split; [discriminate | reflexivity].
  - apply (proj1 (proj2 (proj2 (proj2
             (word_count_and_duration (String.concat " " (replicate 1600 "a"))))))).
    + vm_compute. discriminate.
    + vm_compute. discriminate.
Defined.

End Duration.

(** ** Quota and feature gating *)

Section Gating.
Import Policy Api.

Lemma authorize_allowed_iff cfg counter tier :
  authorize cfg counter tier = Allowed ↔
  analyses_this_period counter < quota_for cfg tier.
Proof.
  unfold authorize.
  destruct (Z.ltb_spec (analyses_this_period counter) (quota_for cfg tier)).
  - split; [done | done].
  - split; [discriminate | lia].
Qed.

Lemma check_rate_limit_known cfg user tier :
  tier_of_plan (plan user) = Some tier →
  check_rate_limit cfg user = inr (bool_decide (analyses_this_month user < quota_for cfg tier)).
Proof.
  intros Htier. unfold check_rate_limit. rewrite Htier.
  destruct (authorize cfg (counter_of user) tier) eqn:Hauth.
  - apply authorize_allowed_iff in Hauth. simpl in Hauth.
    by rewrite bool_decide_eq_true_2.
  - rewrite bool_decide_eq_false_2; [done|].
    intros Hlt. apply (authorize_allowed_iff cfg (counter_of user) tier) in Hlt.
    congruence.
Qed.

(** C1: the quota check before an analysis allows the request exactly when
    the counter of the period is strictly below the quota of the tier: at
    [quota - 1] it is [Allowed], at [quota] it is [Denied "quota_exceeded"],
    and [check_rate_limit] is truthy exactly when the user's counter of the
    month is below the quota of the user's tier. *)
Theorem authorize_iff_under_quota (cfg : Settings) (counter : UsageCounter) (tier : PlanTier) :
  (authorize cfg counter tier = Allowed ↔
     analyses_this_period counter < quota_for cfg tier)
  ∧ (authorize cfg counter tier = Denied "quota_exceeded" ↔
     quota_for cfg tier ≤ analyses_this_period counter)
  ∧ (analyses_this_period counter = quota_for cfg tier - 1 →
     authorize cfg counter tier = Allowed)
  ∧ (analyses_this_period counter = quota_for cfg tier →
     authorize cfg counter tier = Denied "quota_exceeded")
  ∧ (∀ user, tier_of_plan (plan user) = Some tier →
     check_rate_limit cfg user
     = inr (bool_decide (analyses_this_month user < quota_for cfg tier))).
Proof.
  split; [apply authorize_allowed_iff|].
  split.
  { unfold authorize. destruct (Z.ltb_spec (analyses_this_period counter) (quota_for cfg tier)).
    - split; [discriminate | lia].
    - done. }
  split.
  { intros H. apply authorize_allowed_iff. lia. }
  split.
  { intros H. unfold authorize. by rewrite (proj2 (Z.ltb_ge _ _)) by lia. }
  intros user Htier. by apply check_rate_limit_known.
Qed.

(** With the default settings a free user is allowed a third analysis and
    denied a fourth. *)
Lemma authorize_iff_under_quota_witness :
  authorize default_settings
    {| analyses_this_period := 2; counter_total_analyses := 7 |} free = Allowed
  ∧ authorize default_settings
      {| analyses_this_period := 3; counter_total_analyses := 7 |} free
    = Denied "quota_exceeded"
  ∧ check_rate_limit default_settings (free_user 2) = inr true
  ∧ check_rate_limit default_settings (free_user 3) = inr false.
Proof.
  split; [|split; [|split]].
  - apply (authorize_iff_under_quota default_settings
             {| analyses_this_period := 2; counter_total_analyses := 7 |} free).
    reflexivity.
  - apply (authorize_iff_under_quota default_settings
             {| analyses_this_period := 3; counter_total_analyses := 7 |} free).
    reflexivity.
  - apply (proj2 (proj2 (proj2 (proj2
             (authorize_iff_under_quota default_settings
                (counter_of (free_user 2)) free)))) (free_user 2)).
    reflexivity.
  - apply (proj2 (proj2 (proj2 (proj2
             (authorize_iff_under_quota default_settings
                (counter_of (free_user 3)) free)))) (free_user 3)).
    reflexivity.
Defined.

Lemma rank_order : (rank free < rank pro)%nat ∧ (rank pro ≤ rank creator)%nat.
Proof. vm_compute. lia. Qed.

(** The gate of the premium endpoints, for a user whose plan is a tier. *)
Lemma depends_require_plan_pro w tier :
  tier_of_plan (plan (current_user w)) = Some tier →
  depends_require_plan "pro" w
  = (match authorize_feature tier pro with
     | Allowed => inr (current_user w)
     | Denied _ => inl PlanUpgradeRequired
     end, w).
Proof.
  intros Htier. unfold depends_require_plan, bind, gets, lift, require_plan.
  simpl. rewrite Htier. by destruct (authorize_feature tier pro).
Qed.

(** C9: feature gating follows the explicit tier order free, pro, creator:
    a tier satisfies a requirement exactly when its rank is at least the
    required rank; a free user is denied the pro features with reason
    ["plan_upgrade_required"], a pro or creator user is allowed; comparison
    and improvement generation are gated on pro, and a denied request stops
    at the gate. *)
Theorem authorize_feature_follows_tier_order (tier required_tier : PlanTier) :
  (authorize_feature tier required_tier = Allowed ↔
     (rank required_tier ≤ rank tier)%nat)
  ∧ (authorize_feature tier required_tier = Denied "plan_upgrade_required" ↔
     (rank tier < rank required_tier)%nat)
  ∧ TIER_ORDER = [free; pro; creator]
  ∧ (rank free < rank pro)%nat ∧ (rank pro ≤ rank creator)%nat
  ∧ authorize_feature free pro = Denied "plan_upgrade_required"
  ∧ authorize_feature pro pro = Allowed
  ∧ authorize_feature creator pro = Allowed
  ∧ (∀ w script_a script_b,
       tier_of_plan (plan (current_user w)) = Some tier →
       authorize_feature tier pro = Denied "plan_upgrade_required" →
       compare_scripts script_a script_b w = (inl PlanUpgradeRequired, w)
       ∧ improve_script script_a script_b w = (inl PlanUpgradeRequired, w))
  ∧ (∀ w,
       tier_of_plan (plan (current_user w)) = Some tier →
       authorize_feature tier pro = Allowed →
       depends_require_plan "pro" w = (inr (current_user w), w)).
Proof.
  split.
  { unfold authorize_feature, tier_satisfies.
    destruct (Nat.leb_spec (rank required_tier) (rank tier)).
    - done.
    - split; [discriminate | lia]. }
  split.
  { unfold authorize_feature, tier_satisfies.
    destruct (Nat.leb_spec (rank required_tier) (rank tier)).
    - split; [discriminate | lia].
    - done. }
  split; [reflexivity|].
  split; [apply rank_order|]. split; [apply rank_order|].
  do 3 (split; [reflexivity|]).
  split.
  - intros w script_a script_b Htier Hdenied.
    unfold compare_scripts, improve_script, bind.
    rewrite (depends_require_plan_pro w tier Htier), Hdenied. done.
  - intros w Htier Hallowed.
    by rewrite (depends_require_plan_pro w tier Htier), Hallowed.
Qed.

(** A free user at the comparison endpoint, and a creator at the gate. *)
Lemma authorize_feature_follows_tier_order_witness :
  compare_scripts "first draft" "second draft"
    (fresh_world default_settings (fun _ => Raises "unused") true (free_user 0) [])
  = (inl PlanUpgradeRequired,
     fresh_world default_settings (fun _ => Raises "unused") true (free_user 0) [])
  ∧ authorize_feature creator pro = Allowed
  ∧ depends_require_plan "pro"
      (fresh_world default_settings (fun _ => Raises "unused") true
         {| id := "u2"; plan := "creator";
            analyses_this_month := 0; total_analyses := 0 |} [])
    = (inr {| id := "u2"; plan := "creator";
              analyses_this_month := 0; total_analyses := 0 |},
       fresh_world default_settings (fun _ => Raises "unused") true
         {| id := "u2"; plan := "creator";
            analyses_this_month := 0; total_analyses := 0 |} []).
Proof.
  split; [|split].
  - apply (authorize_feature_follows_tier_order free pro); reflexivity.
  - apply (proj1 (authorize_feature_follows_tier_order creator pro)).
    unfold rank. simpl. lia.
  - apply (proj2 (proj2 (proj2 (proj2 (proj2 (proj2 (proj2 (proj2 (proj2
             (authorize_feature_follows_tier_order creator pro))))))))));
      reflexivity.
Defined.

(** C5, as stated, fails: for a plan outside the three tiers the plan-limit
    lookup of [GET /stats] answers with the default limit 3. *)
Lemma unknown_plan_gets_default_limit :
  let user := {| id := "u1"; plan := "enterprise";
                 analyses_this_month := 1; total_analyses := 9 |} in
  tier_of_plan (plan user) = None
  ∧ plan_limit user = 3
  ∧ ∀ w, current_user w = user →
         (get_stats w).1
         = inr {| stats_total_analyses := 9; stats_analyses_this_month := 1;
                  stats_plan_limit := 3; stats_remaining_analyses := 2 |}.
Proof.
  repeat split.
  intros w Hw. unfold get_stats, bind, gets, ret. simpl. rewrite Hw. reflexivity.
Qed.

(** C5, amended: for every plan value other than free, pro and creator the
    plan-limit lookup of [GET /stats] does not fail: it substitutes the
    default limit 3, and the remaining analyses are counted against it. *)
Theorem plan_limit_defaults_to_three (w : World) :
  plan (current_user w) ≠ "free" →
  plan (current_user w) ≠ "pro" →
  plan (current_user w) ≠ "creator" →
  plan_limit (current_user w) = 3
  ∧ ∃ stats, get_stats w = (inr stats, w)
      ∧ stats_plan_limit stats = 3
      ∧ stats_remaining_analyses stats
        = Z.max 0 (3 - analyses_this_month (current_user w)).
Proof.
  intros Hfree Hpro Hcreator.
  assert (plan_limit (current_user w) = 3) as Hlimit.
  { unfold plan_limit, plan_limits.
    rewrite !lookup_insert_ne by done.
    by rewrite lookup_singleton_ne. }
  split; [done|].
  eexists. split; [reflexivity|]. simpl. by rewrite Hlimit.
Qed.

Lemma plan_limit_defaults_to_three_witness :
  plan_limit {| id := "u1"; plan := "enterprise";
                analyses_this_month := 1; total_analyses := 9 |} = 3.
Proof.
  apply (plan_limit_defaults_to_three
           (fresh_world default_settings (fun _ => Raises "unused") true
              {| id := "u1"; plan := "enterprise";
                 analyses_this_month := 1; total_analyses := 9 |} []));
    simpl; discriminate.
Defined.

End Gating.

(** ** The analysis request: gate, scoring call, counters, stored lists *)

Section Request.
Import Policy ScriptAnalyzer ViralPatternDetector Api.

(** [ScriptAnalyzer.analyze_script] calls the service once, whatever comes
    back, and touches nothing else. *)
Lemma analyzer_run script script_type w :
  ScriptAnalyzer.analyze_script script script_type w
  = (analysis_of_reply script (service w (api_calls w)),
     with_api_calls (S (api_calls w)) w).
Proof.
  unfold ScriptAnalyzer.analyze_script, try_except, bind, acreate, lift, ret, raise.
  simpl. destruct (service w (api_calls w)) as [msg|content|value]; simpl; [done..|].
  destruct value; simpl; try done.
  destruct (_estimate_duration script); simpl; done.
Qed.


(** The gate of [POST /analyze] comes first: a denied request leaves the
    world as it found it. *)
Lemma analyze_script_denied request w :
  Policy.check_rate_limit (settings w) (current_user w) = inr false →
  analyze_script request w = (inl limit_reached, w).
Proof.
  intros Hgate. unfold analyze_script, bind, gets, lift. simpl. by rewrite Hgate.
Qed.

Lemma analyze_script_gate_error request w e :
  Policy.check_rate_limit (settings w) (current_user w) = inl e →
  analyze_script request w = (inl e, w).
Proof.
  intros Hgate. unfold analyze_script, bind, gets, lift. simpl. by rewrite Hgate.
Qed.

(** Past the gate, the handler either stores an analysis built from the
    reply, with both counters raised by one, or answers 500: after a
    rollback, or, when only the read-back of the committed row failed, with
    the analysis stored and counted. *)
Lemma analyze_script_allowed request w :
  Policy.check_rate_limit (settings w) (current_user w) = inr true →
  let script := request_script request in
  let outcome := analyze_script request w in
  api_calls outcome.2 = S (api_calls w) ∧
  match outcome.1 with
  | inr analysis =>
      ∃ result result' : json,
        analysis_of_reply script (service w (api_calls w)) = inr result
        ∧ setitem result "viral_patterns_detected"
            (JArr (JStr <$> ViralPatternDetector.detect_patterns script)) = inr result'
        ∧ build_analysis (current_user w) request result' = inr analysis
        ∧ commit_succeeds w = true
        ∧ analyses_this_month (current_user outcome.2) = analyses_this_month (current_user w) + 1
        ∧ total_analyses (current_user outcome.2) = total_analyses (current_user w) + 1
        ∧ stored_user outcome.2 = current_user outcome.2
        ∧ rows outcome.2 = (rows w ++ pending w ++ [AnalysisRow analysis])%list
  | inl e =>
      (∃ detail, e = HTTPException 500 detail)
      ∧ (rolled_back w outcome.2
         ∨ (∃ result, analysis_of_reply script (service w (api_calls w)) = inr result)
           ∧ commit_succeeds w = true ∧ refresh_succeeds w = false)
  end.
Proof.
  intros Hgate script outcome. subst outcome script.
  unfold analyze_script, bind, gets, lift. simpl. rewrite Hgate. simpl.
  unfold try_except, bind. rewrite analyzer_run.
  destruct (analysis_of_reply _ _) as [e|result] eqn:Hreply; simpl.
  { split; [done|]. split; [by eexists|]. left. by repeat split. }
  unfold lift.
  destruct (setitem result _ _) as [e|result'] eqn:Hset; simpl.
  { split; [done|]. split; [by eexists|]. left. by repeat split. }
  destruct (build_analysis _ _ _) as [e|analysis] eqn:Hbuild; simpl.
  { split; [done|]. split; [by eexists|]. left. by repeat split. }
  unfold db_commit, db_refresh. simpl.
  destruct (commit_succeeds w) eqn:Hcommit; simpl.
  - destruct (refresh_succeeds w) eqn:Hrefresh; simpl.
    + split; [done|]. exists result, result'. by repeat split.
    + split; [done|]. split; [by eexists|]. right. split; [by eexists|done].
  - split; [done|]. split; [by eexists|]. left. by repeat split.
Qed.

(** C3: a request from a user whose counter has reached the quota is denied
    with 429 before the scoring service is invoked: no call is made and the
    world is left as it was. *)
Theorem over_quota_request_makes_no_call (request : AnalyzeScriptRequest) (w : World)
    (tier : PlanTier) :
  tier_of_plan (plan (current_user w)) = Some tier →
  quota_for (settings w) tier ≤ analyses_this_month (current_user w) →
  analyze_script request w
  = (inl (HTTPException 429 "Monthly limit reached. Upgrade to Pro for more analyses."), w)
  ∧ api_calls (analyze_script request w).2 = api_calls w.
Proof.
  intros Htier Hquota.
  assert (check_rate_limit (settings w) (current_user w) = inr false) as Hgate.
  { rewrite (check_rate_limit_known _ _ tier Htier).
    rewrite bool_decide_eq_false_2; [done | lia]. }
  rewrite (analyze_script_denied request w Hgate). done.
Qed.

(** Quota 3, counter at 3: denied, and the service has not been called. *)
Lemma over_quota_request_makes_no_call_witness :
  let w := fresh_world default_settings (fun _ => Parsed (scored_reply (JInt 8))) true
             (free_user 3) [] in
  (analyze_script plain_request w).1
  = inl (HTTPException 429 "Monthly limit reached. Upgrade to Pro for more analyses.")
  ∧ api_calls (analyze_script plain_request w).2 = 0%nat.
Proof.
  intros w.
  destruct (over_quota_request_makes_no_call plain_request w free) as [Hrun Hcalls].
  - reflexivity.
  - simpl. lia.
  - split; [by rewrite Hrun | exact Hcalls].
Defined.

(** A failed [POST /analyze] has touched nothing, or has rolled the session
    back, unless the scoring call went well and only the read-back of the
    committed row failed. *)
Lemma analyze_script_failure request w e :
  (analyze_script request w).1 = inl e →
  (analyze_script request w).2 = w
  ∨ rolled_back w (analyze_script request w).2
  ∨ ∃ result, analysis_of_reply (request_script request) (service w (api_calls w))
              = inr result.
Proof.
  intros Hfail.
  destruct (check_rate_limit (settings w) (current_user w)) as [e'|[|]] eqn:Hgate.
  - left. by rewrite (analyze_script_gate_error request w e' Hgate).
  - right. pose proof (analyze_script_allowed request w Hgate) as [_ Hrun].
    rewrite Hfail in Hrun. destruct Hrun as [_ [Hback | [Hscored _]]]; [by left | by right].
  - left. by rewrite (analyze_script_denied request w Hgate).
Qed.

(** C2: when the scoring call of an analysis request fails, the request
    fails and the user's counters, in the session and in the database, are
    what they were; no row is stored. *)
Theorem failed_scoring_leaves_counters (request : AnalyzeScriptRequest) (w : World)
    (e : exn) :
  current_user w = stored_user w →
  (ScriptAnalyzer.analyze_script (request_script request)
     (request_script_type request) w).1 = inl e →
  (∃ e', (analyze_script request w).1 = inl e')
  ∧ analyses_this_month (current_user (analyze_script request w).2)
    = analyses_this_month (current_user w)
  ∧ total_analyses (current_user (analyze_script request w).2)
    = total_analyses (current_user w)
  ∧ stored_user (analyze_script request w).2 = stored_user w
  ∧ rows (analyze_script request w).2 = rows w.
Proof.
  intros Hclean Hscoring.
  rewrite analyzer_run in Hscoring. simpl in Hscoring.
  assert (∃ e', (analyze_script request w).1 = inl e') as [e' He'].
  { destruct (check_rate_limit (settings w) (current_user w)) as [e'|[|]] eqn:Hgate.
    - rewrite (analyze_script_gate_error request w e' Hgate). by eexists.
    - pose proof (analyze_script_allowed request w Hgate) as [_ Hrun].
      destruct (analyze_script request w).1 as [e'|analysis]; [by eexists|].
      destruct Hrun as (result & result' & Hreply & _). congruence.
    - rewrite (analyze_script_denied request w Hgate). by eexists. }
  split; [by exists e'|].
  destruct (analyze_script_failure request w e' He')
    as [-> | [(Hu & Hs & _ & Hr) | [result Hscored]]].
  - done.
  - rewrite Hu, Hs, Hr, Hclean. done.
  - congruence.
Qed.

(** A timeout of the service: the third analysis of the month is not counted. *)
Lemma failed_scoring_leaves_counters_witness :
  let w := fresh_world default_settings (fun _ => Raises "Request timed out") true
             (free_user 2) [] in
  (∃ e', (analyze_script plain_request w).1 = inl e')
  ∧ analyses_this_month (current_user (analyze_script plain_request w).2) = 2
  ∧ total_analyses (current_user (analyze_script plain_request w).2) = 2
  ∧ stored_user (analyze_script plain_request w).2 = free_user 2
  ∧ rows (analyze_script plain_request w).2 = [].
Proof.
  intros w.
  apply (failed_scoring_leaves_counters plain_request w
           (Exception "Failed to analyze script: Request timed out")).
  - reflexivity.
  - reflexivity.
Defined.

(** The two pattern lists of a row come from the same-named keys of the
    result, an empty list standing in for an absent key. *)
Lemma build_analysis_patterns user request m analysis :
  build_analysis user request (JObj m) = inr analysis →
  viral_patterns_detected analysis = default (JArr []) (m !! "viral_patterns_detected")
  ∧ viral_patterns_missing analysis = default (JArr []) (m !! "viral_patterns_missing").
Proof.
  unfold build_analysis, getitem, get. intros H.
  repeat case_match; simplify_eq; done.
Qed.

Lemma analysis_of_reply_inr script reply result :
  analysis_of_reply script reply = inr result →
  ∃ m duration,
    reply = Parsed (JObj m)
    ∧ _estimate_duration script = inr duration
    ∧ result
      = JObj (<["script_length" :=
                  JStr (script_length (word_count script))]>
             (<["estimated_duration" := JStr duration]>
             (<["word_count" := JInt (word_count script)]> m))).
Proof.
  unfold analysis_of_reply. intros H.
  destruct reply as [msg|content|[| | | | | |m]]; try discriminate.
  destruct (_estimate_duration script) as [e|duration]; [discriminate|].
  exists m, duration. by simplify_eq.
Qed.

(** The metadata of a result are computed from the script alone. *)
Lemma analyzer_metadata script script_type w result :
  (ScriptAnalyzer.analyze_script script script_type w).1 = inr result →
  getitem result "word_count" = inr (JInt (word_count script))
  ∧ ∃ duration, _estimate_duration script = inr duration
                ∧ getitem result "estimated_duration" = inr (JStr duration).
Proof.
  rewrite analyzer_run. simpl. intros Hreply.
  apply analysis_of_reply_inr in Hreply as (m & duration & _ & Hduration & ->).
  simpl. split.
  - by rewrite lookup_insert_ne, lookup_insert_ne, lookup_insert_eq.
  - exists duration. split; [done|].
    by rewrite lookup_insert_ne, lookup_insert_eq.
Qed.

(** C4, as stated, fails: for a script on which no pattern fires and a reply
    without a [viral_patterns_missing] field, the stored analysis has both
    lists empty, so they do not cover the pattern names. *)
Lemma stored_lists_need_not_cover_the_names :
  let w := fresh_world default_settings (fun _ => Parsed (scored_reply (JInt 8))) true
             (free_user 0) [] in
  ∃ analysis,
    (analyze_script plain_request w).1 = inr analysis
    ∧ viral_patterns_detected analysis = JArr []
    ∧ viral_patterns_missing analysis = JArr []
    ∧ "Curiosity Gap" ∈ pattern_names.
Proof.
  eexists. split; [vm_compute; reflexivity|].
  repeat split. unfold pattern_names. set_solver.
Qed.

(** C4, amended: for every analysis that [POST /analyze] stores, the
    detected list is [detect_patterns] of the script, a sub-list of the six
    pattern names; the missing list is the [viral_patterns_missing] field of
    the service's reply, empty when the reply has none. *)
Theorem stored_pattern_lists (request : AnalyzeScriptRequest) (w : World)
    (analysis : Analysis) :
  (analyze_script request w).1 = inr analysis →
  viral_patterns_detected analysis
  = JArr (JStr <$> detect_patterns (request_script request))
  ∧ detect_patterns (request_script request) `sublist_of` pattern_names
  ∧ ∃ m, service w (api_calls w) = Parsed (JObj m)
         ∧ viral_patterns_missing analysis
           = default (JArr []) (m !! "viral_patterns_missing").
Proof.
  intros Hrun.
  destruct (check_rate_limit (settings w) (current_user w)) as [e|[|]] eqn:Hgate.
  - by rewrite (analyze_script_gate_error request w e Hgate) in Hrun.
  - pose proof (analyze_script_allowed request w Hgate) as [_ Hspec].
    rewrite Hrun in Hspec.
    destruct Hspec as (result & result' & Hreply & Hset & Hbuild & _).
    apply analysis_of_reply_inr in Hreply as (m & duration & Hservice & _ & ->).
    simpl in Hset. simplify_eq.
    apply build_analysis_patterns in Hbuild as [Hdetected Hmissing].
    split.
    { by rewrite Hdetected, lookup_insert_eq. }
    split; [apply detect_patterns_sublist|].
    exists m. split; [done|].
    rewrite Hmissing. by rewrite !lookup_insert_ne by done.
  - by rewrite (analyze_script_denied request w Hgate) in Hrun.
Qed.

(** A reply that names its own missing patterns: they are stored as sent. *)
Lemma stored_pattern_lists_witness :
  let reply := JObj {[ "overall_score" := JInt 8;
                       "virality_prediction" := JStr "High";
                       "scores" := JNull; "strengths" := JArr [];
                       "weaknesses" := JArr []; "improvements" := JArr [];
                       "viral_patterns_missing" := JArr [JStr "Contrarian take"] ]} in
  let w := fresh_world default_settings (fun _ => Parsed reply) true (free_user 0) [] in
  ∃ analysis,
    (analyze_script plain_request w).1 = inr analysis
    ∧ viral_patterns_detected analysis = JArr []
    ∧ ∃ m, Parsed reply = Parsed (JObj m)
           ∧ viral_patterns_missing analysis
             = default (JArr []) (m !! "viral_patterns_missing").
Proof.
  intros reply w.
  destruct (analyze_script plain_request w).1 as [e|analysis] eqn:Hrun.
  - exfalso. vm_compute in Hrun. discriminate.
  - exists analysis. split; [reflexivity|].
    destruct (stored_pattern_lists plain_request w analysis Hrun)
      as (Hdetected & _ & Hmissing).
    split; [exact Hdetected | exact Hmissing].
Defined.

(** C6, as stated, fails: a reply whose overall score is 42 and that lacks
    most of the required fields is returned by the analyzer as a result. *)
Lemma analyzer_returns_unvalidated_reply :
  let w := fresh_world default_settings
             (fun _ => Parsed (JObj {[ "overall_score" := JInt 42 ]})) true
             (free_user 0) [] in
  ∃ result,
    (ScriptAnalyzer.analyze_script (request_script plain_request) "tutorial" w).1
    = inr result
    ∧ getitem result "overall_score" = inr (JInt 42)
    ∧ getitem result "scores" = inl (KeyError "scores").
Proof.
  eexists. split; [vm_compute; reflexivity|].
  split; vm_compute; reflexivity.
Qed.

(** C6, amended: [ScriptAnalyzer.analyze_script] calls the scoring service
    exactly once, whatever comes back; when the call raises, or its body is
    not JSON or not a JSON object, it fails with a plain [Exception] whose
    message starts with "Failed to analyze script: "; a body that parses to
    an object is returned with the three metadata keys set, whatever fields
    and scores it holds. *)
Theorem analyzer_single_call_no_validation (script script_type : string) (w : World) :
  (ScriptAnalyzer.analyze_script script script_type w).2
  = with_api_calls (S (api_calls w)) w
  ∧ (∀ msg, service w (api_calls w) = Raises msg →
       (ScriptAnalyzer.analyze_script script script_type w).1
       = inl (Exception ("Failed to analyze script: " +:+ msg)))
  ∧ (∀ content, service w (api_calls w) = Unparsable content →
       ∃ msg, (ScriptAnalyzer.analyze_script script script_type w).1
              = inl (Exception ("Failed to analyze script: " +:+ msg)))
  ∧ (∀ value, service w (api_calls w) = Parsed value →
       (∀ m, value ≠ JObj m) →
       ∃ msg, (ScriptAnalyzer.analyze_script script script_type w).1
              = inl (Exception ("Failed to analyze script: " +:+ msg)))
  ∧ (∀ m duration, service w (api_calls w) = Parsed (JObj m) →
       _estimate_duration script = inr duration →
       (ScriptAnalyzer.analyze_script script script_type w).1
       = inr (JObj (<["script_length" :=
                        JStr (script_length (word_count script))]>
                   (<["estimated_duration" := JStr duration]>
                   (<["word_count" := JInt (word_count script)]> m))))).
Proof.
  rewrite analyzer_run. simpl.
  split; [done|].
  split; [by intros msg ->|].
  split; [intros content ->; by eexists|].
  split.
  - intros value -> Hshape. destruct value; simpl; try by eexists.
    by destruct (Hshape m).
  - intros m duration -> Hduration. simpl. by rewrite Hduration.
Qed.

(** A timeout fails and a score of 42 passes, each after one call. *)
Lemma analyzer_single_call_no_validation_witness :
  let w_timeout := fresh_world default_settings (fun _ => Raises "Request timed out") true
                     (free_user 0) [] in
  let w_wild := fresh_world default_settings
                  (fun _ => Parsed (JObj {[ "overall_score" := JInt 42 ]})) true
                  (free_user 0) [] in
  (ScriptAnalyzer.analyze_script scenario_script "general" w_timeout).1
  = inl (Exception "Failed to analyze script: Request timed out")
  ∧ api_calls (ScriptAnalyzer.analyze_script scenario_script "general" w_timeout).2 = 1%nat
  ∧ (ScriptAnalyzer.analyze_script scenario_script "general" w_wild).1
    = inr (JObj (<["script_length" := JStr "short"]>
                (<["estimated_duration" := JStr "5 seconds"]>
                (<["word_count" := JInt 14]> {[ "overall_score" := JInt 42 ]})))).
Proof.
  intros w_timeout w_wild.
  pose proof (analyzer_single_call_no_validation scenario_script "general" w_timeout)
    as (Hworld & Hraises & _).
  pose proof (analyzer_single_call_no_validation scenario_script "general" w_wild)
    as (_ & _ & _ & _ & Hparsed).
  split; [|split].
  - apply Hraises. reflexivity.
  - rewrite Hworld. reflexivity.
  - apply (Hparsed {[ "overall_score" := JInt 42 ]} "5 seconds"); reflexivity.
Defined.

End Request.
